(** * A shallow embedding of the ds18b20 one-wire temperature sensor driver

    Sources: [src/lib.rs] (the driver) and [src/resolution.rs] (the
    [Resolution] enum).  The one-wire bus itself ([one_wire_bus::OneWire])
    is an external crate; it is modelled here as a recording bus: every
    primitive appends an event to a log, reads take their data from
    streams supplied by the devices, and a pin fault makes every primitive
    fail with the pin's error.

    Integers: a [u8] is a [Z] in [0, 256), an [i8] a [Z] in [-128, 128),
    a [u16] a [Z] in [0, 65536).  An [f32] is a binary32 value with
    round-to-nearest-even, see [Module F32]. *)

From Stdlib Require Import ZArith List Bool QArith Lia.
Import ListNotations.
Open Scope Z_scope.

(* ------------------------------------------------------------------ *)
(** ** Binary32 floating point (the [f32] of [read_data]) *)

Module F32.

(** A finite value [F s m e] is [(-1)^s * m * 2^e]. *)
Inductive f32 :=
| F (s : bool) (m e : Z)
| Inf (s : bool)
| NaN.

(** 24-bit significand, smallest exponent of a subnormal, largest
    exponent of a finite value. *)
Definition prec : Z := 24.
Definition emin : Z := -149.
Definition emax : Z := 104.

(** [floor (log2 (p / q))] for [p, q > 0]. *)
Definition flog2 (p q : Z) : Z :=
  let t := Z.log2 p - Z.log2 q in
  let below := if 0 <=? t then p <? q * 2 ^ t else p * 2 ^ (- t) <? q in
  if below then t - 1 else t.

(** Round the non-negative rational [p / q] ([q > 0]) to the nearest
    binary32 value, ties to even, with sign [s]. *)
Definition round (s : bool) (p q : Z) : f32 :=
  if p =? 0 then F s 0 emin
  else
    let e := Z.max (flog2 p q - (prec - 1)) emin in
    let num := if 0 <=? e then p else p * 2 ^ (- e) in
    let den := if 0 <=? e then q * 2 ^ e else q in
    let m := num / den in
    let r := num mod den in
    let m' := if (den <? 2 * r) || ((2 * r =? den) && Z.odd m) then m + 1 else m in
    let '(m'', e'') := if m' =? 2 ^ prec then (2 ^ (prec - 1), e + 1) else (m', e) in
    if emax <? e'' then Inf s else F s m'' e''.

(** [n as f32] for an integer [n]. *)
Definition of_Z (n : Z) : f32 :=
  if n <? 0 then round true (- n) 1 else round false n 1.

(** IEEE division [x / y]. *)
Definition div (x y : f32) : f32 :=
  match x, y with
  | NaN, _ | _, NaN => NaN
  | Inf _, Inf _ => NaN
  | Inf sx, F sy _ _ => Inf (xorb sx sy)
  | F sx _ _, Inf sy => F (xorb sx sy) 0 emin
  | F sx mx ex, F sy my ey =>
      let s := xorb sx sy in
      if my =? 0 then (if mx =? 0 then NaN else Inf s)
      else round s (mx * 2 ^ Z.max (ex - ey) 0) (my * 2 ^ Z.max (ey - ex) 0)
  end.

(** The real value of a finite float, as a rational. *)
Definition to_Q (x : f32) : option Q :=
  match x with
  | F s m e =>
      let v := if 0 <=? e then inject_Z (m * 2 ^ e) else Qmake m (Z.to_pos (2 ^ (- e))) in
      Some (if s then Qopp v else v)
  | _ => None
  end.

(** [x] is finite and denotes exactly [q]. *)
Definition eqb_Q (x : f32) (q : Q) : bool :=
  match to_Q x with
  | Some v => Qeq_bool v q
  | None => false
  end.

End F32.

(* ------------------------------------------------------------------ *)
(** ** Bytes and CRC-8 ([one_wire_bus::crc]) *)

Definition is_byte (b : Z) : Prop := 0 <= b < 256.

(** One byte of the Dallas/Maxim CRC-8 (reflected polynomial 0x8C):
    the inner [for _ in 0..8] loop of [calculate_crc8]. *)
Fixpoint crc8_bits (crc byte : Z) (n : nat) : Z :=
  match n with
  | O => crc
  | S n' =>
      let x := Z.land (Z.lxor byte crc) 1 in
      let crc1 := Z.shiftr crc 1 in
      let crc2 := if x =? 0 then crc1 else Z.lxor crc1 (Z.of_N 0x8C) in
      crc8_bits crc2 (Z.shiftr byte 1) n'
  end.

Definition calculate_crc8 (data : list Z) : Z :=
  fold_left (fun crc b => crc8_bits crc b 8) data 0.

(** [check_crc8] succeeds iff the CRC over the whole buffer, trailing CRC
    byte included, is zero. *)
Definition check_crc8 (data : list Z) : bool := calculate_crc8 data =? 0.

(* ------------------------------------------------------------------ *)
(** ** [src/resolution.rs] *)

Inductive Resolution := Bits9 | Bits10 | Bits11 | Bits12.

Definition max_measurement_time_millis (r : Resolution) : Z :=
  match r with
  | Bits9 => 94
  | Bits10 => 188
  | Bits11 => 375
  | Bits12 => 750
  end.

Definition from_config_register (config : Z) : option Resolution :=
  if config =? 31 then Some Bits9          (* 0b00011111 *)
  else if config =? 63 then Some Bits10    (* 0b00111111 *)
  else if config =? 95 then Some Bits11    (* 0b01011111 *)
  else if config =? 127 then Some Bits12   (* 0b01111111 *)
  else None.

(** [*self as u8]: the [#[repr(u8)]] discriminants. *)
Definition to_config_register (r : Resolution) : Z :=
  match r with
  | Bits9 => 31
  | Bits10 => 63
  | Bits11 => 95
  | Bits12 => 127
  end.

(* ------------------------------------------------------------------ *)
(** ** The one-wire bus ([one_wire_bus::OneWire]) *)

(** [one_wire_bus::Address(u64)]: byte 0 (the low byte) is the family
    code. *)
Record Address := MkAddress { address_u64 : Z }.

Definition family_code (a : Address) : Z := Z.land (address_u64 a) 255.

(** The errors of [one_wire_bus::OneWireError] the driver produces or
    propagates; [PinError] carries the pin's own error [E]. *)
Inductive OneWireError (E : Type) :=
| PinError (e : E)
| FamilyCodeMismatch
| CrcMismatch
| Timeout.
Arguments PinError {E} e.
Arguments FamilyCodeMismatch {E}.
Arguments CrcMismatch {E}.
Arguments Timeout {E}.

(** [OneWireResult<T, E>]. *)
Inductive OneWireResult (T E : Type) :=
| Ok (v : T)
| Err (err : OneWireError E).
Arguments Ok {T E} v.
Arguments Err {T E} err.

(** What the driver does on the wire, in order. *)
Inductive event :=
| EvReset
| EvMatchAddress (a : Address)
| EvSkipAddress
| EvWriteByte (b : Z)
| EvReadBytes (n : nat)
| EvReadBit
| EvDelayMillis (ms : Z).

Section Bus.
Context {E : Type}.

(** The bus: the log of what was put on the wire, the bytes the devices
    will answer to byte reads, the bits they answer to bit reads ([ow_bits i]
    is the answer to the [i]-th bit read, [ow_nbits] the number of bit
    reads so far), and a pin fault, if any. *)
Record OneWire := MkOneWire {
  ow_log : list event;
  ow_rx : list Z;
  ow_bits : nat -> bool;
  ow_nbits : nat;
  ow_fault : option E
}.

(** Every bus operation threads the bus and may fail. *)
Definition M (A : Type) : Type := OneWire -> OneWireResult A E * OneWire.

Definition ret {A} (x : A) : M A := fun ow => (Ok x, ow).
Definition fail {A} (err : OneWireError E) : M A := fun ow => (Err err, ow).
Definition bind {A B} (m : M A) (k : A -> M B) : M B :=
  fun ow =>
    match m ow with
    | (Ok x, ow') => k x ow'
    | (Err err, ow') => (Err err, ow')
    end.

(** [r?] on a pure result. *)
Definition lift {A} (r : OneWireResult A E) : M A := fun ow => (r, ow).

Local Notation "x <- m ;; k" := (bind m (fun x => k))
  (at level 61, m at next level, right associativity).
Local Notation "m ;; k" := (bind m (fun _ => k))
  (at level 61, right associativity).

Definition log_event (ev : event) (ow : OneWire) : OneWire :=
  MkOneWire (ow_log ow ++ [ev]) (ow_rx ow) (ow_bits ow) (ow_nbits ow) (ow_fault ow).

(** A primitive that only puts [ev] on the wire. *)
Definition wire_op (ev : event) : M unit :=
  fun ow =>
    match ow_fault ow with
    | Some e => (Err (PinError e), ow)
    | None => (Ok tt, log_event ev ow)
    end.

(** [reset] returns whether a presence pulse was seen; the driver
    discards it. *)
Definition reset : M bool := wire_op EvReset;; ret true.
Definition match_address (a : Address) : M unit := wire_op (EvMatchAddress a).
Definition skip_address : M unit := wire_op EvSkipAddress.
Definition write_byte (b : Z) : M unit := wire_op (EvWriteByte b).

(** [read_bytes(&mut buf)] with [buf.len() = n]; an idle (pulled-up) line
    reads as [0xFF] once the devices have nothing more to send. *)
Definition read_bytes (n : nat) : M (list Z) :=
  fun ow =>
    match ow_fault ow with
    | Some e => (Err (PinError e), ow)
    | None =>
        let got := firstn n (ow_rx ow) in
        (Ok (got ++ repeat 255 (n - length got)),
         MkOneWire (ow_log ow ++ [EvReadBytes n]) (skipn n (ow_rx ow))
                   (ow_bits ow) (ow_nbits ow) None)
    end.

Definition read_bit : M bool :=
  fun ow =>
    match ow_fault ow with
    | Some e => (Err (PinError e), ow)
    | None =>
        (Ok (ow_bits ow (ow_nbits ow)),
         MkOneWire (ow_log ow ++ [EvReadBit]) (ow_rx ow)
                   (ow_bits ow) (S (ow_nbits ow)) None)
    end.

(** [send_command(cmd, address)]: reset, match or skip, command byte. *)
Definition send_command (command : Z) (address : option Address) : M unit :=
  _ <- reset;;
  match address with
  | Some a => match_address a
  | None => skip_address
  end;;
  write_byte command.

(** [Timer::after_millis(ms).await]. *)
Definition after_millis (ms : Z) : M unit :=
  fun ow => (Ok tt, log_event (EvDelayMillis ms) ow).

(** [one_wire_bus::READ_SLOT_DURATION_MICROS]. *)
Definition READ_SLOT_DURATION_MICROS : Z := 70.

End Bus.
Arguments OneWire : clear implicits.
Arguments M : clear implicits.

Notation "x <- m ;; k" := (bind m (fun x => k))
  (at level 61, m at next level, right associativity).
Notation "m ;; k" := (bind m (fun _ => k))
  (at level 61, right associativity).

(* ------------------------------------------------------------------ *)
(** ** [src/lib.rs] *)

(** Modelled from the spec: the [commands] module ([pub mod commands;])
    is not among the sources.  The spec names the command bytes as fixed
    opaque protocol constants of the device's datasheet; these are the
    datasheet's values.  No result below depends on them. *)
Definition CONVERT_TEMP : Z := 68.        (* 0x44 *)
Definition WRITE_SCRATCHPAD : Z := 78.    (* 0x4E *)
Definition READ_SCRATCHPAD : Z := 190.    (* 0xBE *)
Definition COPY_SCRATCHPAD : Z := 72.     (* 0x48 *)
Definition RECALL_EEPROM : Z := 184.      (* 0xB8 *)

Definition FAMILY_CODE : Z := 40.         (* 0x28 *)

Record SensorData := MkSensorData {
  temperature : F32.f32;
  resolution : Resolution;
  alarm_temp_low : Z;
  alarm_temp_high : Z
}.

Record Ds18b20 := MkDs18b20 { address : Address }.

(** [x.to_ne_bytes()[0]] for [x : i8]: its two's-complement byte. *)
Definition i8_to_ne_byte (x : Z) : Z := x mod 256.

(** [i8::from_le_bytes([b])]. *)
Definition i8_from_le_bytes (b : Z) : Z := if b <? 128 then b else b - 256.

(** [u16::from_le_bytes([lo, hi])]. *)
Definition u16_from_le_bytes (lo hi : Z) : Z := lo + 256 * hi.

(** [Ds18b20::new]: no bus argument, a check of the address only. *)
Definition new {E : Type} (addr : Address) : OneWireResult Ds18b20 E :=
  if family_code addr =? FAMILY_CODE then Ok (MkDs18b20 addr)
  else Err FamilyCodeMismatch.

(** The [match resolution { ... }] of [read_data]:
    [(raw_temp as f32) / 16.0] and so on. *)
Definition temperature_of (resolution : Resolution) (raw_temp : Z) : F32.f32 :=
  match resolution with
  | Bits12 => F32.div (F32.of_Z raw_temp) (F32.of_Z 16)
  | Bits11 => F32.div (F32.of_Z raw_temp) (F32.of_Z 8)
  | Bits10 => F32.div (F32.of_Z raw_temp) (F32.of_Z 4)
  | Bits9 => F32.div (F32.of_Z raw_temp) (F32.of_Z 2)
  end.

Section Driver.
Context {E : Type}.

Definition start_temp_measurement (self : Ds18b20) : M E unit :=
  send_command CONVERT_TEMP (Some (address self));;
  ret tt.

Definition set_config (self : Ds18b20) (alarm_temp_low alarm_temp_high : Z)
    (resolution : Resolution) : M E unit :=
  send_command WRITE_SCRATCHPAD (Some (address self));;
  write_byte (i8_to_ne_byte alarm_temp_high);;
  write_byte (i8_to_ne_byte alarm_temp_low);;
  write_byte (to_config_register resolution);;
  ret tt.

Definition start_simultaneous_temp_measurement : M E unit :=
  _ <- reset;;
  skip_address;;
  write_byte CONVERT_TEMP;;
  ret tt.

Definition read_scratchpad (addr : Address) : M E (list Z) :=
  _ <- reset;;
  match_address addr;;
  write_byte READ_SCRATCHPAD;;
  scratchpad <- read_bytes 9;;
  lift (if check_crc8 scratchpad then Ok tt else Err CrcMismatch);;
  ret scratchpad.

(** The free function [read_data]; [Ds18b20::read_data] only calls it
    with [self.address]. *)
Definition read_data (addr : Address) : M E SensorData :=
  scratchpad <- read_scratchpad addr;;
  match from_config_register (nth 4 scratchpad 0) with
  | None => fail CrcMismatch
  | Some resolution =>
      let raw_temp := u16_from_le_bytes (nth 0 scratchpad 0) (nth 1 scratchpad 0) in
      let temperature := temperature_of resolution raw_temp in
      ret {| temperature := temperature;
             resolution := resolution;
             alarm_temp_high := i8_from_le_bytes (nth 2 scratchpad 0);
             alarm_temp_low := i8_from_le_bytes (nth 3 scratchpad 0) |}
  end.

Definition Ds18b20_read_data (self : Ds18b20) : M E SensorData :=
  data <- read_data (address self);;
  ret data.

(** [for _ in 0..n { if onewire.read_bit()? == true { return Ok(()); } }
    Err(OneWireError::Timeout)] *)
Fixpoint poll_read_bit (n : nat) : M E unit :=
  match n with
  | O => fail Timeout
  | S n' => b <- read_bit;; if b then ret tt else poll_read_bit n'
  end.

(** [(10000 / READ_SLOT_DURATION_MICROS) + 1] in [u16]. *)
Definition max_retries : Z := 10000 / READ_SLOT_DURATION_MICROS + 1.

Definition recall_from_eeprom (addr : option Address) : M E unit :=
  send_command RECALL_EEPROM addr;;
  poll_read_bit (Z.to_nat max_retries).

Definition save_to_eeprom (addr : option Address) : M E unit :=
  send_command COPY_SCRATCHPAD addr;;
  after_millis 10;;
  ret tt.

Definition simultaneous_recall_from_eeprom : M E unit := recall_from_eeprom None.
Definition simultaneous_save_to_eeprom : M E unit := save_to_eeprom None.
Definition Ds18b20_recall_from_eeprom (self : Ds18b20) : M E unit :=
  recall_from_eeprom (Some (address self)).
Definition Ds18b20_save_to_eeprom (self : Ds18b20) : M E unit :=
  save_to_eeprom (Some (address self)).

End Driver.

(* ------------------------------------------------------------------ *)
(** ** Concrete buses *)

(** A fault-free bus, with [unit] pin errors, whose devices answer the
    bytes [rx] and the bits [bits]. *)
Definition test_bus (rx : list Z) (bits : nat -> bool) : OneWire unit :=
  MkOneWire [] rx bits 0 None.

(** The power-on scratchpad, CRC 0xD7. *)
Definition sp_power_on : list Z := [0x50; 0x05; 0x4B; 0xC6; 0x7F; 0xFF; 0x0C; 0x10; 0xD7].

(** The same with a wrong CRC byte. *)
Definition sp_bad_crc : list Z := [0x50; 0x05; 0x4B; 0xC6; 0x7F; 0xFF; 0x0C; 0x10; 0x00].

(** Config byte 0x00 with its correct CRC (0xE5). *)
Definition sp_bad_config : list Z := [0x50; 0x05; 0x4B; 0xC6; 0x00; 0xFF; 0x0C; 0x10; 0xE5].

(** Raw temperature 0xFF50 (a sub-zero reading on the wire), CRC 0xD3. *)
Definition sp_sub_zero : list Z := [0x50; 0xFF; 0x4B; 0x46; 0x7F; 0xFF; 0x0C; 0x10; 0xD3].

(** A bus whose device signals completion on the 144th bit read. *)
Definition recall_late_bus : OneWire unit :=
  MkOneWire [] [] (fun i => Nat.leb 143 i) 0 None.

(** A bus whose pin has failed. *)
Definition faulty_bus : OneWire unit :=
  MkOneWire [] [] (fun _ => false) 0 (Some tt).

(** The number of bits each enumerant names. *)
Definition resolution_bits (r : Resolution) : Z :=
  match r with
  | Bits9 => 9
  | Bits10 => 10
  | Bits11 => 11
  | Bits12 => 12
  end.

(* ------------------------------------------------------------------ *)
(** ** Finite checks *)

(** [f] holds at [z], [z + 1], ..., [z + n - 1]. *)
Fixpoint for_all_from (n : nat) (z : Z) (f : Z -> bool) : bool :=
  match n with
  | O => true
  | S n' => f z && for_all_from n' (z + 1) f
  end.

(** For bytes [c] and [b]: one CRC-8 byte step stays a byte, and it
    yields 0 iff [b = c]. *)
Definition crc8_byte_facts (c b : Z) : bool :=
  let r := crc8_bits c b 8 in
  (0 <=? r) && (r <? 256) && Bool.eqb (r =? 0) (b =? c).

(** The divisor the spec gives for each resolution: 16, 8, 4, 2. *)
Definition claimed_divisor (r : Resolution) : Z :=
  match r with
  | Bits12 => 16
  | Bits11 => 8
  | Bits10 => 4
  | Bits9 => 2
  end.

(** [raw as f32] is exactly [raw], and for each resolution
    [temperature_of r raw] is exactly [raw / claimed_divisor r]. *)
Definition temperature_exact_at (raw : Z) : bool :=
  F32.eqb_Q (F32.of_Z raw) (inject_Z raw) &&
  forallb (fun r => F32.eqb_Q (temperature_of r raw)
                              (inject_Z raw / inject_Z (claimed_divisor r)))
          [Bits9; Bits10; Bits11; Bits12].

Ltac bytes_tac :=
  repeat (apply Forall_cons; [unfold is_byte; lia|]); apply Forall_nil.

Lemma for_all_from_spec (n : nat) : forall z f x,
  for_all_from n z f = true -> z <= x < z + Z.of_nat n -> f x = true.
Proof.
  induction n as [|n IH]; intros z f x Hall Hx; simpl in *.
  - lia.
  - apply andb_true_iff in Hall as [Hz Hrest].
    destruct (Z.eq_dec x z) as [->|Hne]; [exact Hz|].
    apply (IH (z + 1)); [exact Hrest | lia].
Qed.

(* ------------------------------------------------------------------ *)
(** ** CRC-8 facts *)

Lemma crc8_byte_facts_all : for_all_from 256 0 (fun c => for_all_from 256 0 (crc8_byte_facts c)) = true.
Proof. vm_compute. reflexivity. Qed.

Lemma crc8_bits_facts (c b : Z) : is_byte c -> is_byte b ->
  is_byte (crc8_bits c b 8) /\ (crc8_bits c b 8 = 0 <-> b = c).
Proof.
  unfold is_byte; intros Hc Hb.
  pose proof (for_all_from_spec 256 0 _ c crc8_byte_facts_all ltac:(lia)) as Hrow.
  pose proof (for_all_from_spec 256 0 _ b Hrow ltac:(lia)) as H.
  unfold crc8_byte_facts in H.
  apply andb_true_iff in H as [H Heq]; apply andb_true_iff in H as [H0 H1].
  apply Z.leb_le in H0; apply Z.ltb_lt in H1.
  split; [lia|].
  destruct (crc8_bits c b 8 =? 0) eqn:E1, (b =? c) eqn:E2; simpl in Heq;
    try discriminate; rewrite ?Z.eqb_eq, ?Z.eqb_neq in *; split; intro; congruence.
Qed.

Lemma crc8_fold_byte (l : list Z) : forall c,
  Forall is_byte l -> is_byte c ->
  is_byte (fold_left (fun crc b => crc8_bits crc b 8) l c).
Proof.
  induction l as [|b l IH]; intros c Hl Hc; simpl; [exact Hc|].
  inversion Hl; subst.
  apply IH; [assumption|].
  apply crc8_bits_facts; assumption.
Qed.

Lemma calculate_crc8_byte (l : list Z) : Forall is_byte l -> is_byte (calculate_crc8 l).
Proof.
  intro Hl; apply crc8_fold_byte; [exact Hl | unfold is_byte; lia].
Qed.

(** The check over the 9 bytes succeeds iff the CRC of bytes 0-7 is
    byte 8. *)
Lemma check_crc8_trailing (sp : list Z) :
  length sp = 9%nat -> Forall is_byte sp ->
  check_crc8 sp = true <-> calculate_crc8 (firstn 8 sp) = nth 8 sp 0.
Proof.
  intros Hlen Hb.
  assert (Hsplit : sp = firstn 8 sp ++ [nth 8 sp 0]).
  { do 9 (destruct sp as [|? sp]; try discriminate).
    destruct sp; [reflexivity | discriminate]. }
  assert (Hb8 : is_byte (nth 8 sp 0)).
  { rewrite Forall_forall in Hb; apply Hb, nth_In; lia. }
  assert (Hc : is_byte (calculate_crc8 (firstn 8 sp))).
  { apply calculate_crc8_byte.
    rewrite <- (firstn_skipn 8 sp), Forall_app in Hb; apply Hb. }
  unfold check_crc8.
  rewrite Hsplit at 1; unfold calculate_crc8 at 1; rewrite fold_left_app; cbn [fold_left].
  rewrite Z.eqb_eq.
  destruct (crc8_bits_facts _ _ Hc Hb8) as [_ Hiff].
  unfold calculate_crc8 in *; split; intro H.
  - symmetry; apply Hiff; exact H.
  - apply Hiff; symmetry; exact H.
Qed.

(* ------------------------------------------------------------------ *)
(** ** Bus steps on a fault-free bus *)

Lemma firstn_length_app {A} (l1 l2 : list A) : firstn (length l1) (l1 ++ l2) = l1.
Proof. induction l1 as [|x l1 IH]; simpl; [reflexivity | now rewrite IH]. Qed.

Lemma skipn_length_app {A} (l1 l2 : list A) : skipn (length l1) (l1 ++ l2) = l2.
Proof. induction l1 as [|x l1 IH]; simpl; [reflexivity | exact IH]. Qed.

Section Steps.
Context {E : Type}.

Lemma read_scratchpad_clean (a : Address) (bus : OneWire E) (sp rest : list Z) :
  ow_fault bus = None -> ow_rx bus = sp ++ rest -> length sp = 9%nat ->
  read_scratchpad a bus =
    ((if check_crc8 sp then Ok sp else Err CrcMismatch),
     MkOneWire (ow_log bus ++ [EvReset; EvMatchAddress a; EvWriteByte READ_SCRATCHPAD; EvReadBytes 9])
               rest (ow_bits bus) (ow_nbits bus) None).
Proof.
  destruct bus as [log rx bits nb f]; simpl; intros -> -> Hlen.
  unfold read_scratchpad, bind, reset, wire_op, ret, match_address, write_byte,
    read_bytes, lift, log_event; cbn -[firstn skipn check_crc8 length Nat.sub].
  rewrite <- Hlen, firstn_length_app, skipn_length_app, Nat.sub_diag; cbn -[check_crc8].
  rewrite app_nil_r, <- !app_assoc; simpl.
  destruct (check_crc8 sp); reflexivity.
Qed.

(** [read_data] on a fault-free bus whose devices answer [sp]: the CRC
    gate, then the decode. *)
Lemma read_data_clean (a : Address) (bus : OneWire E) (sp rest : list Z) :
  ow_fault bus = None -> ow_rx bus = sp ++ rest -> length sp = 9%nat ->
  fst (read_data a bus) =
    if check_crc8 sp then
      match from_config_register (nth 4 sp 0) with
      | None => Err CrcMismatch
      | Some r =>
          Ok {| temperature := temperature_of r (u16_from_le_bytes (nth 0 sp 0) (nth 1 sp 0));
                resolution := r;
                alarm_temp_high := i8_from_le_bytes (nth 2 sp 0);
                alarm_temp_low := i8_from_le_bytes (nth 3 sp 0) |}
      end
    else Err CrcMismatch.
Proof.
  intros Hf Hrx Hlen.
  unfold read_data, bind at 1.
  rewrite (read_scratchpad_clean a bus sp rest Hf Hrx Hlen).
  destruct (check_crc8 sp); [|reflexivity].
  destruct (from_config_register (nth 4 sp 0)); reflexivity.
Qed.

Lemma send_command_clean (cmd : Z) (addr : option Address) (bus : OneWire E) :
  ow_fault bus = None ->
  send_command cmd addr bus =
    (Ok tt,
     MkOneWire (ow_log bus ++ [EvReset;
                               match addr with Some a => EvMatchAddress a | None => EvSkipAddress end;
                               EvWriteByte cmd])
               (ow_rx bus) (ow_bits bus) (ow_nbits bus) None).
Proof.
  destruct bus as [log rx bits nb f]; simpl; intros ->.
  unfold send_command, bind, reset, wire_op, ret, match_address, skip_address,
    write_byte, log_event; simpl.
  destruct addr; unfold wire_op, log_event; simpl; rewrite <- !app_assoc; reflexivity.
Qed.

(** The polling loop stops at the first [true] bit. *)
Lemma poll_read_bit_first_true (n : nat) : forall (k : nat) (bus : OneWire E),
  ow_fault bus = None -> (k < n)%nat ->
  (forall i, (i < k)%nat -> ow_bits bus (ow_nbits bus + i) = false) ->
  ow_bits bus (ow_nbits bus + k) = true ->
  fst (poll_read_bit n bus) = Ok tt /\ ow_nbits (snd (poll_read_bit n bus)) = (ow_nbits bus + S k)%nat.
Proof.
  induction n as [|n IH]; intros k [log rx bits nb f] Hf Hk Hfalse Htrue;
    simpl in *; subst f; [lia|].
  unfold bind, read_bit; simpl.
  destruct k as [|k].
  - rewrite Nat.add_0_r in Htrue; rewrite Htrue; simpl; split; [reflexivity | lia].
  - pose proof (Hfalse 0%nat ltac:(lia)) as H0; rewrite Nat.add_0_r in H0; rewrite H0.
    destruct (IH k (MkOneWire (log ++ [EvReadBit]) rx bits (S nb) None))
      as [H1 H2]; simpl; try reflexivity; try lia.
    + intros i Hi; match goal with |- bits ?x = _ => replace x with (nb + S i)%nat by lia end.
      apply Hfalse; lia.
    + match goal with |- bits ?x = _ => replace x with (nb + S k)%nat by lia end.
      exact Htrue.
    + split; [exact H1 | rewrite H2; simpl; lia].
Qed.

(** The polling loop gives up after [n] [false] bits. *)
Lemma poll_read_bit_timeout (n : nat) : forall (bus : OneWire E),
  ow_fault bus = None ->
  (forall i, (i < n)%nat -> ow_bits bus (ow_nbits bus + i) = false) ->
  fst (poll_read_bit n bus) = Err Timeout /\ ow_nbits (snd (poll_read_bit n bus)) = (ow_nbits bus + n)%nat.
Proof.
  induction n as [|n IH]; intros [log rx bits nb f] Hf Hfalse; simpl in *; subst f.
  - split; [reflexivity | lia].
  - unfold bind, read_bit; simpl.
    pose proof (Hfalse 0%nat ltac:(lia)) as H0; rewrite Nat.add_0_r in H0; rewrite H0.
    destruct (IH (MkOneWire (log ++ [EvReadBit]) rx bits (S nb) None)) as [H1 H2];
      simpl; try reflexivity.
    + intros i Hi; match goal with |- bits ?x = _ => replace x with (nb + S i)%nat by lia end.
      apply Hfalse; lia.
    + split; [exact H1 | rewrite H2; simpl; lia].
Qed.

End Steps.

(* ------------------------------------------------------------------ *)
(** ** Exactness of the temperature decode *)

(** Checked for every [u16]. *)
Lemma temperature_exact_all : for_all_from (Z.to_nat 65536) 0 temperature_exact_at = true.
Proof. vm_compute. reflexivity. Qed.

Lemma eqb_Q_spec (x : F32.f32) (q : Q) :
  F32.eqb_Q x q = true -> exists v, F32.to_Q x = Some v /\ (v == q)%Q.
Proof.
  unfold F32.eqb_Q; destruct (F32.to_Q x) as [v|]; [|discriminate].
  intro H; exists v; split; [reflexivity | apply Qeq_bool_eq; exact H].
Qed.

Lemma temperature_exact (raw : Z) : 0 <= raw < 65536 ->
  (exists v, F32.to_Q (F32.of_Z raw) = Some v /\ (v == inject_Z raw)%Q) /\
  (forall r, exists v, F32.to_Q (temperature_of r raw) = Some v /\
                       (v == inject_Z raw / inject_Z (claimed_divisor r))%Q).
Proof.
  intro Hraw.
  pose proof (for_all_from_spec _ _ _ raw temperature_exact_all) as H.
  rewrite Z2Nat.id in H by lia; specialize (H ltac:(lia)).
  unfold temperature_exact_at in H; apply andb_true_iff in H as [H0 H1].
  split; [apply eqb_Q_spec; exact H0|].
  intro r; apply eqb_Q_spec.
  rewrite forallb_forall in H1; apply H1.
  destruct r; simpl; tauto.
Qed.

Lemma u16_from_le_bytes_range (lo hi : Z) : is_byte lo -> is_byte hi ->
  0 <= lo + 256 * hi < 65536.
Proof. unfold is_byte; lia. Qed.

Lemma nth_byte (sp : list Z) (i : nat) : Forall is_byte sp -> (i < length sp)%nat ->
  is_byte (nth i sp 0).
Proof. intros Hb Hi; rewrite Forall_forall in Hb; apply Hb, nth_In; exact Hi. Qed.

Lemma from_config_register_other (c : Z) :
  ~ In c [31; 63; 95; 127] -> from_config_register c = None.
Proof.
  intro Hc; unfold from_config_register.
  destruct (c =? 31) eqn:E1; [apply Z.eqb_eq in E1; subst; simpl in Hc; tauto|].
  destruct (c =? 63) eqn:E2; [apply Z.eqb_eq in E2; subst; simpl in Hc; tauto|].
  destruct (c =? 95) eqn:E3; [apply Z.eqb_eq in E3; subst; simpl in Hc; tauto|].
  destruct (c =? 127) eqn:E4; [apply Z.eqb_eq in E4; subst; simpl in Hc; tauto|].
  reflexivity.
Qed.


(* ------------------------------------------------------------------ *)
(** ** Reading the scratchpad *)

Section ReadData.
Context {E : Type}.

(** C1: on a fault-free bus whose device answers a 9-byte scratchpad that
    passes the CRC-8 check and whose config byte (index 4) decodes to a
    resolution [r], [read_data] returns [Ok] with resolution [r] and a
    temperature equal to the little-endian raw value of bytes 0-1 divided
    by 16, 8, 4 or 2 for 12, 11, 10 or 9 bits. *)
Theorem read_data_decodes (a : Address) (bus : OneWire E) (sp rest : list Z)
    (r : Resolution) :
  ow_fault bus = None -> ow_rx bus = sp ++ rest -> length sp = 9%nat ->
  Forall is_byte sp -> check_crc8 sp = true ->
  from_config_register (nth 4 sp 0) = Some r ->
  exists d q, fst (read_data a bus) = Ok d /\ resolution d = r /\
    F32.to_Q (temperature d) = Some q /\
    (q == inject_Z (nth 0 sp 0 + 256 * nth 1 sp 0)%Z / inject_Z (claimed_divisor r))%Q.
Proof.
  intros Hf Hrx Hlen Hb Hcrc Hcfg.
  rewrite (read_data_clean a bus sp rest Hf Hrx Hlen), Hcrc, Hcfg.
  assert (Hraw : 0 <= nth 0 sp 0 + 256 * nth 1 sp 0 < 65536).
  { apply u16_from_le_bytes_range; apply nth_byte; auto; lia. }
  destruct (proj2 (temperature_exact _ Hraw) r) as [q [Hq Heq]].
  eexists; exists q; split; [reflexivity|].
  split; [reflexivity|]; split; [exact Hq | exact Heq].
Qed.

(** C2: on a fault-free bus whose device answers a scratchpad whose CRC-8
    over bytes 0-7 is not byte 8, [read_data] fails with [CrcMismatch]; no
    [SensorData] is returned. *)
Theorem read_data_crc_mismatch (a : Address) (bus : OneWire E) (sp rest : list Z) :
  ow_fault bus = None -> ow_rx bus = sp ++ rest -> length sp = 9%nat ->
  Forall is_byte sp -> calculate_crc8 (firstn 8 sp) <> nth 8 sp 0 ->
  fst (read_data a bus) = Err CrcMismatch.
Proof.
  intros Hf Hrx Hlen Hb Hbad.
  rewrite (read_data_clean a bus sp rest Hf Hrx Hlen).
  destruct (check_crc8 sp) eqn:Hc; [|reflexivity].
  exfalso; apply Hbad, (check_crc8_trailing sp Hlen Hb); exact Hc.
Qed.

(** C3: on a fault-free bus, a scratchpad that passes the CRC-8 check but
    whose config byte is none of 0x1F, 0x3F, 0x5F, 0x7F makes [read_data]
    fail with [CrcMismatch]: no resolution is defaulted. *)
Theorem read_data_unknown_config (a : Address) (bus : OneWire E) (sp rest : list Z) :
  ow_fault bus = None -> ow_rx bus = sp ++ rest -> length sp = 9%nat ->
  check_crc8 sp = true -> ~ In (nth 4 sp 0) [31; 63; 95; 127] ->
  fst (read_data a bus) = Err CrcMismatch.
Proof.
  intros Hf Hrx Hlen Hcrc Hcfg.
  rewrite (read_data_clean a bus sp rest Hf Hrx Hlen), Hcrc,
    (from_config_register_other _ Hcfg).
  reflexivity.
Qed.

(** C8: the scratchpad [50 05 4B C6 7F FF 0C 10] with its CRC (0xD7)
    decodes to 85 degrees, 12-bit resolution, high alarm 75 and low alarm
    -58. *)
Theorem read_data_power_on_default (a : Address) (bus : OneWire E) (rest : list Z) :
  ow_fault bus = None ->
  ow_rx bus = [0x50; 0x05; 0x4B; 0xC6; 0x7F; 0xFF; 0x0C; 0x10; 0xD7] ++ rest ->
  calculate_crc8 [0x50; 0x05; 0x4B; 0xC6; 0x7F; 0xFF; 0x0C; 0x10] = 0xD7 /\
  exists d q, fst (read_data a bus) = Ok d /\
    F32.to_Q (temperature d) = Some q /\ (q == 85)%Q /\
    resolution d = Bits12 /\ alarm_temp_high d = 75 /\ alarm_temp_low d = -58.
Proof.
  intros Hf Hrx.
  split; [vm_compute; reflexivity|].
  rewrite (read_data_clean a bus _ rest Hf Hrx eq_refl).
  vm_compute.
  eexists; eexists; split; [reflexivity|].
  split; [reflexivity|].
  split; [reflexivity|].
  repeat split.
Qed.

(** C9: the raw field is read as unsigned: when its high bit is set (byte
    1 at least 0x80), the temperature is the non-negative
    [unsigned_raw / divisor]. *)
Theorem read_data_unsigned_raw (a : Address) (bus : OneWire E) (sp rest : list Z)
    (r : Resolution) :
  ow_fault bus = None -> ow_rx bus = sp ++ rest -> length sp = 9%nat ->
  Forall is_byte sp -> check_crc8 sp = true ->
  from_config_register (nth 4 sp 0) = Some r -> 128 <= nth 1 sp 0 ->
  exists d q, fst (read_data a bus) = Ok d /\
    F32.to_Q (temperature d) = Some q /\
    (q == inject_Z (nth 0 sp 0 + 256 * nth 1 sp 0)%Z / inject_Z (claimed_divisor r))%Q /\
    (0 <= q)%Q.
Proof.
  intros Hf Hrx Hlen Hb Hcrc Hcfg Hhigh.
  rewrite (read_data_clean a bus sp rest Hf Hrx Hlen), Hcrc, Hcfg.
  assert (Hraw : 0 <= nth 0 sp 0 + 256 * nth 1 sp 0 < 65536).
  { apply u16_from_le_bytes_range; apply nth_byte; auto; lia. }
  destruct (proj2 (temperature_exact _ Hraw) r) as [q [Hq Heq]].
  eexists; exists q; split; [reflexivity|].
  split; [exact Hq|]; split; [exact Heq|].
  rewrite Heq; apply Qle_shift_div_l.
  - destruct r; reflexivity.
  - rewrite Qmult_0_l; change 0%Q with (inject_Z 0); rewrite <- Zle_Qle; lia.
Qed.

End ReadData.

(* ------------------------------------------------------------------ *)
(** ** Construction, configuration, resolution encoding *)

(** C4: [Ds18b20::new] takes no bus, so it does no bus I/O; for an
    address whose low byte (the family code) is [b0] and whose other seven
    bytes are [rest], it succeeds iff [b0 = 0x28], whatever [rest] is, and
    fails with [FamilyCodeMismatch] otherwise. *)
Theorem new_checks_family (E : Type) (b0 rest : Z) :
  0 <= b0 < 256 ->
  @new E (MkAddress (b0 + 256 * rest)) =
    if b0 =? 0x28 then Ok (MkDs18b20 (MkAddress (b0 + 256 * rest)))
    else Err FamilyCodeMismatch.
Proof.
  intro Hb0.
  assert (Hfam : family_code (MkAddress (b0 + 256 * rest)) = b0).
  { unfold family_code, address_u64.
    change 255 with (Z.ones 8); rewrite Z.land_ones by lia.
    replace (b0 + 256 * rest) with (b0 + rest * 2 ^ 8) by ring.
    rewrite Z.mod_add by (apply Z.pow_nonzero; lia).
    apply Z.mod_small; simpl; lia. }
  unfold new; rewrite Hfam; reflexivity.
Qed.

Section Config.
Context {E : Type}.

(** C5: on a fault-free bus, [set_config] resets, addresses this device,
    writes the write-scratchpad command and then exactly three bytes: the
    high alarm threshold, the low alarm threshold (each as its
    two's-complement byte) and the resolution's config byte. *)
Theorem set_config_writes (self : Ds18b20) (low high : Z) (res : Resolution)
    (bus : OneWire E) :
  ow_fault bus = None ->
  set_config self low high res bus =
    (Ok tt,
     MkOneWire (ow_log bus ++ [EvReset; EvMatchAddress (address self);
                               EvWriteByte WRITE_SCRATCHPAD;
                               EvWriteByte (high mod 256); EvWriteByte (low mod 256);
                               EvWriteByte (to_config_register res)])
               (ow_rx bus) (ow_bits bus) (ow_nbits bus) None).
Proof.
  intro Hf.
  unfold set_config, bind at 1.
  rewrite (send_command_clean _ _ bus Hf).
  unfold bind, write_byte, wire_op, log_event, ret, i8_to_ne_byte; simpl.
  rewrite <- !app_assoc; reflexivity.
Qed.

(** C7 (as the code has it): after the recall-EEPROM command the loop
    reads at most [10000 / READ_SLOT_DURATION_MICROS + 1] bits, the
    division rounding down (143 for the 70 us slot); if the [k]-th bit
    read is the first [true] within that bound, it succeeds after exactly
    [k] bit reads; if all of them are [false], it fails with [Timeout]
    after reading that many bits. *)
Theorem recall_from_eeprom_polls (addr : option Address) (bus : OneWire E) :
  ow_fault bus = None ->
  Z.to_nat (10000 / READ_SLOT_DURATION_MICROS + 1) = 143%nat /\
  (forall k, (1 <= k <= Z.to_nat (10000 / READ_SLOT_DURATION_MICROS + 1))%nat ->
     (forall i, (i < k - 1)%nat -> ow_bits bus (ow_nbits bus + i) = false) ->
     ow_bits bus (ow_nbits bus + (k - 1)) = true ->
     fst (recall_from_eeprom addr bus) = Ok tt /\
     ow_nbits (snd (recall_from_eeprom addr bus)) = (ow_nbits bus + k)%nat) /\
  ((forall i, (i < Z.to_nat (10000 / READ_SLOT_DURATION_MICROS + 1))%nat ->
      ow_bits bus (ow_nbits bus + i) = false) ->
     fst (recall_from_eeprom addr bus) = Err Timeout /\
     ow_nbits (snd (recall_from_eeprom addr bus)) =
       (ow_nbits bus + Z.to_nat (10000 / READ_SLOT_DURATION_MICROS + 1))%nat).
Proof.
  intro Hf.
  set (bus' := @MkOneWire E (ow_log bus ++ [EvReset;
                             match addr with Some a => EvMatchAddress a | None => EvSkipAddress end;
                             EvWriteByte RECALL_EEPROM])
                         (ow_rx bus) (ow_bits bus) (ow_nbits bus) None).
  assert (Hrec : recall_from_eeprom addr bus =
                 poll_read_bit (Z.to_nat (10000 / READ_SLOT_DURATION_MICROS + 1)) bus').
  { unfold recall_from_eeprom, bind at 1, max_retries.
    rewrite (send_command_clean _ _ bus Hf); reflexivity. }
  rewrite Hrec.
  split; [reflexivity|]; split.
  - intros k Hk Hfalse Htrue.
    destruct (poll_read_bit_first_true (Z.to_nat (10000 / READ_SLOT_DURATION_MICROS + 1))
                (k - 1) bus' eq_refl ltac:(lia) Hfalse Htrue) as [H1 H2].
    split; [exact H1 | rewrite H2; simpl; lia].
  - intro Hfalse.
    exact (poll_read_bit_timeout _ bus' eq_refl Hfalse).
Qed.

End Config.

(** C6: [from_config_register] inverts [to_config_register]; the four
    encodings are 0x1F, 0x3F, 0x5F, 0x7F; every other byte decodes to
    [None]. *)
Theorem resolution_config_roundtrip :
  (forall r, from_config_register (to_config_register r) = Some r) /\
  to_config_register Bits9 = 0x1F /\ to_config_register Bits10 = 0x3F /\
  to_config_register Bits11 = 0x5F /\ to_config_register Bits12 = 0x7F /\
  (forall c, In c [0x1F; 0x3F; 0x5F; 0x7F] \/ from_config_register c = None).
Proof.
  split; [intros []; reflexivity|].
  do 4 (split; [reflexivity|]).
  intro c.
  destruct (in_dec Z.eq_dec c [0x1F; 0x3F; 0x5F; 0x7F]) as [Hin|Hout]; [left; exact Hin|].
  right; apply from_config_register_other; exact Hout.
Qed.

(** C10: the decode is exact: for every [u16] raw value, [raw as f32] is
    exactly [raw], and for every resolution the quotient by 16.0, 8.0, 4.0
    or 2.0 is exactly [raw / 2^k] with [k] = 4, 3, 2, 1. *)
Theorem temperature_decode_exact (r : Resolution) (raw : Z) :
  0 <= raw < 65536 ->
  (exists v, F32.to_Q (F32.of_Z raw) = Some v /\ (v == inject_Z raw)%Q) /\
  claimed_divisor r = 2 ^ (match r with Bits12 => 4 | Bits11 => 3 | Bits10 => 2 | Bits9 => 1 end) /\
  (exists v, F32.to_Q (temperature_of r raw) = Some v /\
             (v == inject_Z raw / inject_Z (claimed_divisor r))%Q).
Proof.
  intro Hraw.
  destruct (temperature_exact raw Hraw) as [H0 H1].
  split; [exact H0|]; split; [destruct r; reflexivity | apply H1].
Qed.

(* ------------------------------------------------------------------ *)
(** ** The recall loop bound: ceiling versus floor *)

(** C7 as stated bounds the loop by [ceil (10000 / 70) + 1 = 144] reads and
    so promises success when the first [true] is the 144th bit; the code
    reads only [10000 / 70 + 1 = 143] bits and times out. *)
Lemma recall_from_eeprom_ceil_bound_cx :
  (10000 + READ_SLOT_DURATION_MICROS - 1) / READ_SLOT_DURATION_MICROS + 1 = 144 /\
  (forall i, (i < 143)%nat -> ow_bits recall_late_bus i = false) /\
  ow_bits recall_late_bus 143 = true /\
  fst (recall_from_eeprom None recall_late_bus) = Err Timeout.
Proof.
  split; [reflexivity|].
  split; [intros i Hi; apply Nat.leb_gt; exact Hi|].
  split; [reflexivity|].
  vm_compute; reflexivity.
Qed.

(* ------------------------------------------------------------------ *)
(** ** Witnesses *)

Lemma read_data_decodes_witness :
  exists d q, fst (read_data (MkAddress 40) (test_bus sp_power_on (fun _ => false))) = Ok d /\
    resolution d = Bits12 /\ F32.to_Q (temperature d) = Some q /\
    (q == inject_Z (nth 0 sp_power_on 0 + 256 * nth 1 sp_power_on 0)%Z
          / inject_Z (claimed_divisor Bits12))%Q.
Proof.
  apply (read_data_decodes (MkAddress 40) (test_bus sp_power_on (fun _ => false))
           sp_power_on [] Bits12);
    [reflexivity | reflexivity | reflexivity | unfold sp_power_on; bytes_tac
    | vm_compute; reflexivity | reflexivity].
Defined.

Lemma read_data_crc_mismatch_witness :
  fst (read_data (MkAddress 40) (test_bus sp_bad_crc (fun _ => false))) = Err CrcMismatch.
Proof.
  apply (read_data_crc_mismatch (MkAddress 40) (test_bus sp_bad_crc (fun _ => false))
           sp_bad_crc []);
    [reflexivity | reflexivity | reflexivity | unfold sp_bad_crc; bytes_tac
    | intro H; vm_compute in H; discriminate H].
Defined.

Lemma read_data_unknown_config_witness :
  fst (read_data (MkAddress 40) (test_bus sp_bad_config (fun _ => false))) = Err CrcMismatch.
Proof.
  apply (read_data_unknown_config (MkAddress 40) (test_bus sp_bad_config (fun _ => false))
           sp_bad_config []);
    [reflexivity | reflexivity | reflexivity | vm_compute; reflexivity
    | simpl; intros [H|[H|[H|[H|[]]]]]; discriminate H].
Defined.

Lemma read_data_power_on_default_witness :
  calculate_crc8 [0x50; 0x05; 0x4B; 0xC6; 0x7F; 0xFF; 0x0C; 0x10] = 0xD7 /\
  exists d q, fst (read_data (MkAddress 40) (test_bus sp_power_on (fun _ => false))) = Ok d /\
    F32.to_Q (temperature d) = Some q /\ (q == 85)%Q /\
    resolution d = Bits12 /\ alarm_temp_high d = 75 /\ alarm_temp_low d = -58.
Proof.
  apply (read_data_power_on_default (MkAddress 40) (test_bus sp_power_on (fun _ => false)) []);
    reflexivity.
Defined.

Lemma read_data_unsigned_raw_witness :
  exists d q, fst (read_data (MkAddress 40) (test_bus sp_sub_zero (fun _ => false))) = Ok d /\
    F32.to_Q (temperature d) = Some q /\
    (q == inject_Z (nth 0 sp_sub_zero 0 + 256 * nth 1 sp_sub_zero 0)%Z
          / inject_Z (claimed_divisor Bits12))%Q /\
    (0 <= q)%Q.
Proof.
  apply (read_data_unsigned_raw (MkAddress 40) (test_bus sp_sub_zero (fun _ => false))
           sp_sub_zero [] Bits12);
    [reflexivity | reflexivity | reflexivity | unfold sp_sub_zero; bytes_tac
    | vm_compute; reflexivity | reflexivity | simpl; lia].
Defined.

Lemma new_checks_family_witness :
  @new unit (MkAddress (0x28 + 256 * 7)) =
    if 0x28 =? 0x28 then Ok (MkDs18b20 (MkAddress (0x28 + 256 * 7)))
    else Err FamilyCodeMismatch.
Proof. apply (new_checks_family unit 0x28 7); lia. Defined.

Lemma set_config_writes_witness :
  set_config (MkDs18b20 (MkAddress 40)) (-58) 75 Bits12 (test_bus [] (fun _ => false)) =
    (Ok tt,
     MkOneWire (ow_log (test_bus [] (fun _ => false)) ++
                  [EvReset; EvMatchAddress (address (MkDs18b20 (MkAddress 40)));
                   EvWriteByte WRITE_SCRATCHPAD;
                   EvWriteByte (75 mod 256); EvWriteByte ((-58) mod 256);
                   EvWriteByte (to_config_register Bits12)])
               (ow_rx (test_bus [] (fun _ => false))) (ow_bits (test_bus [] (fun _ => false)))
               (ow_nbits (test_bus [] (fun _ => false))) None).
Proof. apply (set_config_writes (MkDs18b20 (MkAddress 40)) (-58) 75 Bits12); reflexivity. Defined.

Lemma recall_from_eeprom_polls_witness :
  let bus := test_bus [] (fun i => Nat.leb 2 i) in
  Z.to_nat (10000 / READ_SLOT_DURATION_MICROS + 1) = 143%nat /\
  (forall k, (1 <= k <= Z.to_nat (10000 / READ_SLOT_DURATION_MICROS + 1))%nat ->
     (forall i, (i < k - 1)%nat -> ow_bits bus (ow_nbits bus + i) = false) ->
     ow_bits bus (ow_nbits bus + (k - 1)) = true ->
     fst (recall_from_eeprom None bus) = Ok tt /\
     ow_nbits (snd (recall_from_eeprom None bus)) = (ow_nbits bus + k)%nat) /\
  ((forall i, (i < Z.to_nat (10000 / READ_SLOT_DURATION_MICROS + 1))%nat ->
      ow_bits bus (ow_nbits bus + i) = false) ->
     fst (recall_from_eeprom None bus) = Err Timeout /\
     ow_nbits (snd (recall_from_eeprom None bus)) =
       (ow_nbits bus + Z.to_nat (10000 / READ_SLOT_DURATION_MICROS + 1))%nat).
Proof. intro bus; apply (recall_from_eeprom_polls None bus); reflexivity. Defined.

Lemma temperature_decode_exact_witness :
  (exists v, F32.to_Q (F32.of_Z 1360) = Some v /\ (v == inject_Z 1360)%Q) /\
  claimed_divisor Bits12 = 2 ^ 4 /\
  (exists v, F32.to_Q (temperature_of Bits12 1360) = Some v /\
             (v == inject_Z 1360 / inject_Z (claimed_divisor Bits12))%Q).
Proof. apply (temperature_decode_exact Bits12 1360); lia. Defined.

(* ------------------------------------------------------------------ *)
(** ** Further properties of the driver *)

Lemma poll_read_bit_trace (n : nat) : forall {E} (bus : OneWire E),
  ow_fault bus = None ->
  exists j, (j <= n)%nat /\
    snd (poll_read_bit n bus) =
      MkOneWire (ow_log bus ++ repeat EvReadBit j) (ow_rx bus) (ow_bits bus)
                (ow_nbits bus + j) None.
Proof.
  induction n as [|n IH]; intros E [log rx bits nb f] Hf; simpl in Hf; subst f.
  - exists 0%nat; split; [lia|]; simpl; rewrite app_nil_r, Nat.add_0_r; reflexivity.
  - unfold poll_read_bit; fold (@poll_read_bit E); unfold bind, read_bit; simpl.
    destruct (bits nb).
    + exists 1%nat; split; [lia|]; simpl; rewrite Nat.add_1_r; reflexivity.
    + destruct (IH E (MkOneWire (log ++ [EvReadBit]) rx bits (S nb) None) eq_refl)
        as [j [Hj Heq]].
      exists (S j); split; [lia|]; rewrite Heq; simpl.
      rewrite <- app_assoc, Nat.add_succ_r; reflexivity.
Qed.

Lemma i8_byte_roundtrip (x : Z) : -128 <= x < 128 ->
  i8_from_le_bytes (i8_to_ne_byte x) = x.
Proof.
  intro Hx; unfold i8_from_le_bytes, i8_to_ne_byte.
  destruct (Z_lt_le_dec x 0) as [Hneg|Hpos].
  - rewrite <- (Z.mod_unique x 256 (-1) (x + 256)) by lia.
    destruct (x + 256 <? 128) eqn:Hlt; [apply Z.ltb_lt in Hlt; lia | lia].
  - rewrite Z.mod_small by lia.
    destruct (x <? 128) eqn:Hlt; [reflexivity | apply Z.ltb_ge in Hlt; lia].
Qed.

Lemma i8_from_le_bytes_range (b : Z) : is_byte b ->
  -128 <= i8_from_le_bytes b < 128.
Proof.
  unfold is_byte, i8_from_le_bytes; intro Hb.
  destruct (b <? 128) eqn:Hlt; [apply Z.ltb_lt in Hlt | apply Z.ltb_ge in Hlt]; lia.
Qed.

Section Extra.
Context {E : Type}.

(** [read_scratchpad] on a fault-free bus reads exactly the 9 bytes the
    device answers and returns them iff the CRC-8 of bytes 0-7 is byte 8,
    and fails with [CrcMismatch] otherwise. *)
Theorem read_scratchpad_crc_gate (a : Address) (bus : OneWire E) (sp rest : list Z) :
  ow_fault bus = None -> ow_rx bus = sp ++ rest -> length sp = 9%nat ->
  Forall is_byte sp ->
  fst (read_scratchpad a bus) =
    (if calculate_crc8 (firstn 8 sp) =? nth 8 sp 0 then Ok sp else Err CrcMismatch) /\
  ow_rx (snd (read_scratchpad a bus)) = rest.
Proof.
  intros Hf Hrx Hlen Hb.
  rewrite (read_scratchpad_clean a bus sp rest Hf Hrx Hlen); cbn [fst snd ow_rx]; split; [|reflexivity].
  destruct (check_crc8 sp) eqn:Hc.
  - apply (check_crc8_trailing sp Hlen Hb) in Hc; rewrite Hc, Z.eqb_refl; reflexivity.
  - destruct (calculate_crc8 (firstn 8 sp) =? nth 8 sp 0) eqn:He; [|reflexivity].
    apply Z.eqb_eq, (check_crc8_trailing sp Hlen Hb) in He; congruence.
Qed.

(** [Ds18b20::read_data] returns what [read_data] at the device's address
    returns, and, whatever the outcome (data, a CRC error or an unknown
    config byte), it puts exactly reset, match-address, read-scratchpad
    and one 9-byte read on the wire and consumes exactly those 9 bytes:
    there is no retry. *)
Theorem read_data_trace (self : Ds18b20) (bus : OneWire E) (sp rest : list Z) :
  ow_fault bus = None -> ow_rx bus = sp ++ rest -> length sp = 9%nat ->
  fst (Ds18b20_read_data self bus) = fst (read_data (address self) bus) /\
  snd (Ds18b20_read_data self bus) =
    MkOneWire (ow_log bus ++ [EvReset; EvMatchAddress (address self);
                              EvWriteByte READ_SCRATCHPAD; EvReadBytes 9])
              rest (ow_bits bus) (ow_nbits bus) None.
Proof.
  intros Hf Hrx Hlen.
  assert (Hw : Ds18b20_read_data self bus = read_data (address self) bus).
  { unfold Ds18b20_read_data, bind at 1; destruct (read_data (address self) bus) as [[]]; reflexivity. }
  rewrite Hw; clear Hw; split; [reflexivity|].
  unfold read_data, bind at 1.
  rewrite (read_scratchpad_clean (address self) bus sp rest Hf Hrx Hlen).
  destruct (check_crc8 sp); [|reflexivity].
  destruct (from_config_register (nth 4 sp 0)); reflexivity.
Qed.

(** What [set_config] writes, [read_data] reads back: if the scratchpad
    holds, at bytes 2, 3 and 4, the three bytes [set_config] writes for the
    [i8] thresholds [high], [low] and the resolution [res], and passes the
    CRC check, [read_data] returns exactly [high], [low] and [res]. *)
Theorem set_config_read_data_roundtrip (a : Address) (bus : OneWire E)
    (sp rest : list Z) (low high : Z) (res : Resolution) :
  ow_fault bus = None -> ow_rx bus = sp ++ rest -> length sp = 9%nat ->
  check_crc8 sp = true ->
  -128 <= high < 128 -> -128 <= low < 128 ->
  nth 2 sp 0 = i8_to_ne_byte high -> nth 3 sp 0 = i8_to_ne_byte low ->
  nth 4 sp 0 = to_config_register res ->
  exists d, fst (read_data a bus) = Ok d /\
    alarm_temp_high d = high /\ alarm_temp_low d = low /\ resolution d = res.
Proof.
  intros Hf Hrx Hlen Hcrc Hh Hl H2 H3 H4.
  rewrite (read_data_clean a bus sp rest Hf Hrx Hlen), Hcrc, H4.
  replace (from_config_register (to_config_register res)) with (Some res)
    by (destruct res; reflexivity).
  eexists; split; [reflexivity|]; simpl.
  rewrite H2, H3, !i8_byte_roundtrip by assumption.
  repeat split.
Qed.

(** Every [SensorData] that [read_data] returns from a byte scratchpad
    has both alarm thresholds in the [i8] range and a finite temperature
    between 0 and 65535 / 2. *)
Theorem read_data_ranges (a : Address) (bus : OneWire E) (sp rest : list Z)
    (d : SensorData) :
  ow_fault bus = None -> ow_rx bus = sp ++ rest -> length sp = 9%nat ->
  Forall is_byte sp -> fst (read_data a bus) = Ok d ->
  -128 <= alarm_temp_high d < 128 /\ -128 <= alarm_temp_low d < 128 /\
  exists q, F32.to_Q (temperature d) = Some q /\ (0 <= q <= 65535 # 2)%Q.
Proof.
  intros Hf Hrx Hlen Hb Hd.
  rewrite (read_data_clean a bus sp rest Hf Hrx Hlen) in Hd.
  destruct (check_crc8 sp); [|discriminate].
  destruct (from_config_register (nth 4 sp 0)) as [r|]; [|discriminate].
  injection Hd as <-; simpl.
  assert (Hbyte : forall i, (i < 9)%nat -> is_byte (nth i sp 0))
    by (intros i Hi; apply nth_byte; [exact Hb | lia]).
  split; [apply i8_from_le_bytes_range, Hbyte; lia|].
  split; [apply i8_from_le_bytes_range, Hbyte; lia|].
  assert (Hraw : 0 <= u16_from_le_bytes (nth 0 sp 0) (nth 1 sp 0) < 65536)
    by (apply u16_from_le_bytes_range; apply Hbyte; lia).
  destruct (proj2 (temperature_exact _ Hraw) r) as [q [Hq Heq]].
  exists q; split; [exact Hq|]; rewrite Heq.
  destruct r; unfold Qle; simpl; lia.
Qed.

(** Saving to EEPROM, addressed or broadcast, is the copy-scratchpad
    command followed by a blind 10 ms wait: on a fault-free bus it
    succeeds, reads nothing from the bus and polls no bit. *)
Theorem save_to_eeprom_blind_delay (self : Ds18b20) (bus : OneWire E) :
  ow_fault bus = None ->
  Ds18b20_save_to_eeprom self bus =
    (Ok tt, MkOneWire (ow_log bus ++ [EvReset; EvMatchAddress (address self);
                                      EvWriteByte COPY_SCRATCHPAD; EvDelayMillis 10])
                      (ow_rx bus) (ow_bits bus) (ow_nbits bus) None) /\
  simultaneous_save_to_eeprom bus =
    (Ok tt, MkOneWire (ow_log bus ++ [EvReset; EvSkipAddress;
                                      EvWriteByte COPY_SCRATCHPAD; EvDelayMillis 10])
                      (ow_rx bus) (ow_bits bus) (ow_nbits bus) None).
Proof.
  intro Hf.
  unfold Ds18b20_save_to_eeprom, simultaneous_save_to_eeprom, save_to_eeprom, bind at 1 3.
  rewrite !(send_command_clean _ _ bus Hf).
  unfold bind, after_millis, log_event, ret; simpl.
  rewrite <- !app_assoc; split; reflexivity.
Qed.

(** Starting a measurement, for one device or for all, only sends the
    convert command and returns at once: no wait, no read. *)
Theorem start_measurement_no_wait (self : Ds18b20) (bus : OneWire E) :
  ow_fault bus = None ->
  start_temp_measurement self bus =
    (Ok tt, MkOneWire (ow_log bus ++ [EvReset; EvMatchAddress (address self);
                                      EvWriteByte CONVERT_TEMP])
                      (ow_rx bus) (ow_bits bus) (ow_nbits bus) None) /\
  start_simultaneous_temp_measurement bus =
    (Ok tt, MkOneWire (ow_log bus ++ [EvReset; EvSkipAddress; EvWriteByte CONVERT_TEMP])
                      (ow_rx bus) (ow_bits bus) (ow_nbits bus) None).
Proof.
  destruct bus as [log rx bits nb f]; simpl; intros ->.
  unfold start_temp_measurement, start_simultaneous_temp_measurement, send_command,
    bind, reset, match_address, skip_address, write_byte, wire_op, log_event, ret; simpl.
  rewrite <- !app_assoc; split; reflexivity.
Qed.

(** Recalling from EEPROM, addressed or broadcast, writes nothing after
    the recall command: on a fault-free bus the wire sees the command and
    then only bit reads, at most 143 of them, and no byte is consumed. *)
Theorem recall_from_eeprom_trace (self : Ds18b20) (bus : OneWire E) :
  ow_fault bus = None ->
  (exists j, (j <= 143)%nat /\
     snd (Ds18b20_recall_from_eeprom self bus) =
       MkOneWire (ow_log bus ++ [EvReset; EvMatchAddress (address self);
                                 EvWriteByte RECALL_EEPROM] ++ repeat EvReadBit j)
                 (ow_rx bus) (ow_bits bus) (ow_nbits bus + j) None) /\
  (exists j, (j <= 143)%nat /\
     snd (simultaneous_recall_from_eeprom bus) =
       MkOneWire (ow_log bus ++ [EvReset; EvSkipAddress;
                                 EvWriteByte RECALL_EEPROM] ++ repeat EvReadBit j)
                 (ow_rx bus) (ow_bits bus) (ow_nbits bus + j) None).
Proof.
  intro Hf.
  unfold Ds18b20_recall_from_eeprom, simultaneous_recall_from_eeprom, recall_from_eeprom,
    bind at 1 2.
  rewrite !(send_command_clean _ _ bus Hf).
  split.
  - destruct (poll_read_bit_trace (Z.to_nat max_retries) (E := E)
                (@MkOneWire E (ow_log bus ++ [EvReset; EvMatchAddress (address self);
                                          EvWriteByte RECALL_EEPROM])
                           (ow_rx bus) (ow_bits bus) (ow_nbits bus) None) eq_refl)
      as [j [Hj Heq]].
    exists j; split; [exact Hj | rewrite Heq; simpl; rewrite <- app_assoc; reflexivity].
  - destruct (poll_read_bit_trace (Z.to_nat max_retries) (E := E)
                (@MkOneWire E (ow_log bus ++ [EvReset; EvSkipAddress; EvWriteByte RECALL_EEPROM])
                           (ow_rx bus) (ow_bits bus) (ow_nbits bus) None) eq_refl)
      as [j [Hj Heq]].
    exists j; split; [exact Hj | rewrite Heq; simpl; rewrite <- app_assoc; reflexivity].
Qed.

(** With a failed pin, every bus operation of the driver fails with the
    pin's error at its first step and leaves the bus as it was: nothing is
    sent, nothing read, no delay taken. *)
Theorem pin_fault_no_traffic (self : Ds18b20) (addr : option Address)
    (low high : Z) (res : Resolution) (bus : OneWire E) (e : E) :
  ow_fault bus = Some e ->
  read_scratchpad (address self) bus = (Err (PinError e), bus) /\
  Ds18b20_read_data self bus = (Err (PinError e), bus) /\
  set_config self low high res bus = (Err (PinError e), bus) /\
  recall_from_eeprom addr bus = (Err (PinError e), bus) /\
  save_to_eeprom addr bus = (Err (PinError e), bus) /\
  start_temp_measurement self bus = (Err (PinError e), bus) /\
  start_simultaneous_temp_measurement bus = (Err (PinError e), bus).
Proof.
  destruct bus as [log rx bits nb f]; simpl; intros ->.
  repeat split; reflexivity.
Qed.

End Extra.


(** The maximum conversion time grows strictly with the resolution, and
    each extra bit of resolution at most doubles it. *)
Theorem max_measurement_time_monotone (r1 r2 : Resolution) :
  resolution_bits r1 < resolution_bits r2 ->
  max_measurement_time_millis r1 < max_measurement_time_millis r2 /\
  max_measurement_time_millis r2 <=
    2 ^ (resolution_bits r2 - resolution_bits r1) * max_measurement_time_millis r1.
Proof. destruct r1, r2; simpl; lia. Qed.

(* ------------------------------------------------------------------ *)
(** ** Witnesses of the further properties *)

Lemma read_scratchpad_crc_gate_witness :
  fst (read_scratchpad (MkAddress 40) (test_bus sp_bad_crc (fun _ => false))) =
    (if calculate_crc8 (firstn 8 sp_bad_crc) =? nth 8 sp_bad_crc 0
     then Ok sp_bad_crc else Err CrcMismatch) /\
  ow_rx (snd (read_scratchpad (MkAddress 40) (test_bus sp_bad_crc (fun _ => false)))) = [].
Proof.
  apply (read_scratchpad_crc_gate (MkAddress 40) (test_bus sp_bad_crc (fun _ => false))
           sp_bad_crc []);
    [reflexivity | reflexivity | reflexivity | unfold sp_bad_crc; bytes_tac].
Defined.

Lemma read_data_trace_witness :
  fst (Ds18b20_read_data (MkDs18b20 (MkAddress 40)) (test_bus sp_bad_config (fun _ => false))) =
    fst (read_data (address (MkDs18b20 (MkAddress 40))) (test_bus sp_bad_config (fun _ => false))) /\
  snd (Ds18b20_read_data (MkDs18b20 (MkAddress 40)) (test_bus sp_bad_config (fun _ => false))) =
    MkOneWire (ow_log (test_bus sp_bad_config (fun _ => false)) ++
                 [EvReset; EvMatchAddress (address (MkDs18b20 (MkAddress 40)));
                  EvWriteByte READ_SCRATCHPAD; EvReadBytes 9])
              [] (ow_bits (test_bus sp_bad_config (fun _ => false)))
              (ow_nbits (test_bus sp_bad_config (fun _ => false))) None.
Proof.
  apply (read_data_trace (MkDs18b20 (MkAddress 40)) (test_bus sp_bad_config (fun _ => false))
           sp_bad_config []); reflexivity.
Defined.

Lemma set_config_read_data_roundtrip_witness :
  exists d, fst (read_data (MkAddress 40) (test_bus sp_power_on (fun _ => false))) = Ok d /\
    alarm_temp_high d = 75 /\ alarm_temp_low d = -58 /\ resolution d = Bits12.
Proof.
  apply (set_config_read_data_roundtrip (MkAddress 40) (test_bus sp_power_on (fun _ => false))
           sp_power_on [] (-58) 75 Bits12);
    try reflexivity; try lia; vm_compute; reflexivity.
Defined.

Lemma read_data_ranges_witness :
  exists d,
  fst (read_data (MkAddress 40) (test_bus sp_sub_zero (fun _ => false))) = Ok d /\
  -128 <= alarm_temp_high d < 128 /\ -128 <= alarm_temp_low d < 128 /\
  exists q, F32.to_Q (temperature d) = Some q /\ (0 <= q <= 65535 # 2)%Q.
Proof.
  destruct (fst (read_data (MkAddress 40) (test_bus sp_sub_zero (fun _ => false)))) as [d|err] eqn:Hd.
  - exists d; split; [reflexivity|].
    apply (read_data_ranges (MkAddress 40) (test_bus sp_sub_zero (fun _ => false))
             sp_sub_zero [] d);
      [reflexivity | reflexivity | reflexivity | unfold sp_sub_zero; bytes_tac | exact Hd].
  - vm_compute in Hd; discriminate Hd.
Defined.

Lemma save_to_eeprom_blind_delay_witness :
  Ds18b20_save_to_eeprom (MkDs18b20 (MkAddress 40)) (test_bus [] (fun _ => false)) =
    (Ok tt, MkOneWire (ow_log (test_bus [] (fun _ => false)) ++
                         [EvReset; EvMatchAddress (address (MkDs18b20 (MkAddress 40)));
                          EvWriteByte COPY_SCRATCHPAD; EvDelayMillis 10])
                      [] (ow_bits (test_bus [] (fun _ => false))) 0%nat None) /\
  simultaneous_save_to_eeprom (test_bus [] (fun _ => false)) =
    (Ok tt, MkOneWire (ow_log (test_bus [] (fun _ => false)) ++
                         [EvReset; EvSkipAddress; EvWriteByte COPY_SCRATCHPAD; EvDelayMillis 10])
                      [] (ow_bits (test_bus [] (fun _ => false))) 0%nat None).
Proof.
  apply (save_to_eeprom_blind_delay (MkDs18b20 (MkAddress 40)) (test_bus [] (fun _ => false)));
    reflexivity.
Defined.

Lemma start_measurement_no_wait_witness :
  start_temp_measurement (MkDs18b20 (MkAddress 40)) (test_bus [] (fun _ => false)) =
    (Ok tt, MkOneWire (ow_log (test_bus [] (fun _ => false)) ++
                         [EvReset; EvMatchAddress (address (MkDs18b20 (MkAddress 40)));
                          EvWriteByte CONVERT_TEMP])
                      [] (ow_bits (test_bus [] (fun _ => false))) 0%nat None) /\
  start_simultaneous_temp_measurement (test_bus [] (fun _ => false)) =
    (Ok tt, MkOneWire (ow_log (test_bus [] (fun _ => false)) ++
                         [EvReset; EvSkipAddress; EvWriteByte CONVERT_TEMP])
                      [] (ow_bits (test_bus [] (fun _ => false))) 0%nat None).
Proof.
  apply (start_measurement_no_wait (MkDs18b20 (MkAddress 40)) (test_bus [] (fun _ => false)));
    reflexivity.
Defined.

Lemma recall_from_eeprom_trace_witness :
  let bus := test_bus [] (fun i => Nat.leb 2 i) in
  (exists j, (j <= 143)%nat /\
     snd (Ds18b20_recall_from_eeprom (MkDs18b20 (MkAddress 40)) bus) =
       MkOneWire (ow_log bus ++ [EvReset; EvMatchAddress (address (MkDs18b20 (MkAddress 40)));
                                 EvWriteByte RECALL_EEPROM] ++ repeat EvReadBit j)
                 (ow_rx bus) (ow_bits bus) (ow_nbits bus + j) None) /\
  (exists j, (j <= 143)%nat /\
     snd (simultaneous_recall_from_eeprom bus) =
       MkOneWire (ow_log bus ++ [EvReset; EvSkipAddress;
                                 EvWriteByte RECALL_EEPROM] ++ repeat EvReadBit j)
                 (ow_rx bus) (ow_bits bus) (ow_nbits bus + j) None).
Proof.
  intro bus; apply (recall_from_eeprom_trace (MkDs18b20 (MkAddress 40)) bus); reflexivity.
Defined.

Lemma pin_fault_no_traffic_witness :
  let self := MkDs18b20 (MkAddress 40) in
  read_scratchpad (address self) faulty_bus = (Err (PinError tt), faulty_bus) /\
  Ds18b20_read_data self faulty_bus = (Err (PinError tt), faulty_bus) /\
  set_config self (-58) 75 Bits12 faulty_bus = (Err (PinError tt), faulty_bus) /\
  recall_from_eeprom None faulty_bus = (Err (PinError tt), faulty_bus) /\
  save_to_eeprom None faulty_bus = (Err (PinError tt), faulty_bus) /\
  start_temp_measurement self faulty_bus = (Err (PinError tt), faulty_bus) /\
  start_simultaneous_temp_measurement faulty_bus = (Err (PinError tt), faulty_bus).
Proof.
  intro self; apply (pin_fault_no_traffic self None (-58) 75 Bits12 faulty_bus tt); reflexivity.
Defined.

Lemma max_measurement_time_monotone_witness :
  max_measurement_time_millis Bits9 < max_measurement_time_millis Bits12 /\
  max_measurement_time_millis Bits12 <=
    2 ^ (resolution_bits Bits12 - resolution_bits Bits9) * max_measurement_time_millis Bits9.
Proof. apply (max_measurement_time_monotone Bits9 Bits12); simpl; lia. Defined.
